(** * Drive-by-wire node ([twist_controller/dbw_node.py])

    A shallow embedding of the ROS node [DBWNode]: the parameters it reads at
    construction, the three subscriber callbacks, the body of its [loop] and
    [publish], followed by the properties of the node that the specification
    states.

    Conventions.
    - ROS [float64] fields and Python number literals are rationals ([Q]);
      the node never computes on them, it only stores, forwards and (for the
      vehicle parameters) compares against zero.
    - A Python attribute that may hold [None] is an [option].
    - [Controller] lives in [twist_controller.py], which is not part of the
      sources at hand: its state type and its [control] method are parameters
      of the development (Section variables). *)

From Stdlib Require Import QArith ZArith List Bool.
From stdpp Require Import base option gmap strings.
Import ListNotations.

Local Open Scope Q_scope.

(** ** Messages *)

(** [std_msgs/Bool]. *)
Record BoolMsg := { data : bool }.

(** [geometry_msgs/Vector3], [Twist], [TwistStamped] (the header is never
    read by the node). *)
Record Vector3 := { x : Q; y : Q; z : Q }.
Record Twist := { linear : Vector3; angular : Vector3 }.
Record TwistStamped := { twist : Twist }.

(** [dbw_mkz_msgs]: the pedal command types the node uses, and the three
    command messages with the fields [publish] fills in. *)
Inductive pedal_cmd_type_t := CMD_PERCENT | CMD_TORQUE.

Record ThrottleCmd :=
  { t_enable : bool; t_pedal_cmd_type : pedal_cmd_type_t; t_pedal_cmd : Q }.
Record SteeringCmd :=
  { s_enable : bool; s_steering_wheel_angle_cmd : Q }.
Record BrakeCmd :=
  { b_enable : bool; b_pedal_cmd_type : pedal_cmd_type_t; b_pedal_cmd : Q }.

(** ** The value held by [self.dbw_enabled]

    [__init__] stores the Python constant [True]; [dbw_enabled_cb] stores its
    argument, which rospy delivers as an instance of the message class
    [std_msgs.msg.Bool]. *)
Inductive py_flag :=
| PyBool (b : bool)
| PyBoolMsg (msg : BoolMsg).

(** Python truth value, as used by [if self.dbw_enabled:] and by the
    conditional expression in [dbw_enabled_cb]. A [bool] is its own truth
    value. An instance of a class that defines neither [__bool__]
    ([__nonzero__]) nor [__len__] is true, and generated message classes
    define neither: a message object is true whatever its [data]. *)
Definition truthy (v : py_flag) : bool :=
  match v with
  | PyBool b => b
  | PyBoolMsg _ => true
  end.

(** ** Vehicle parameters *)

Record VehicleParameters := {
  vehicle_mass : Q;
  fuel_capacity : Q;
  brake_deadband : Q;
  decel_limit : Q;
  accel_limit : Q;
  wheel_radius : Q;
  wheel_base : Q;
  steer_ratio : Q;
  max_lat_accel : Q;
  max_steer_angle : Q
}.

(** [rospy.get_param(name, default)]: the value on the parameter server, or
    the default when the name is not set. *)
Definition get_param (server : gmap string Q) (name : string) (dflt : Q) : Q :=
  default dflt (server !! name).

(** The keyword arguments of the [Controller(...)] call in [__init__]
    (Python's [1.], [3.], [8.] and [.1] are written [1.0], [3.0], [8.0] and
    [0.1]). *)
Definition read_parameters (server : gmap string Q) : VehicleParameters :=
  {| vehicle_mass := get_param server "~vehicle_mass" 1736.35;
     fuel_capacity := get_param server "~fuel_capacity" 13.5;
     brake_deadband := get_param server "~brake_deadband" 0.1;
     decel_limit := get_param server "~decel_limit" (-5);
     accel_limit := get_param server "~accel_limit" 1.0;
     wheel_radius := get_param server "~wheel_radius" 0.2413;
     wheel_base := get_param server "~wheel_base" 2.8498;
     steer_ratio := get_param server "~steer_ratio" 14.8;
     max_lat_accel := get_param server "~max_lat_accel" 3.0;
     max_steer_angle := get_param server "~max_steer_angle" 8.0 |}.

(** The data-model invariant on the parameters, as a decidable check. *)
Definition Qpos (q : Q) : bool := negb (Qle_bool q 0).
Definition Qneg (q : Q) : bool := negb (Qle_bool 0 q).

Definition parameters_valid (p : VehicleParameters) : bool :=
  Qneg (decel_limit p) && Qpos (accel_limit p) &&
  Qpos (wheel_radius p) && Qpos (wheel_base p) && Qpos (steer_ratio p).

(** [TWIST_CONTROLLER_UPDATE_FREQUENCY = 10] (Hz). *)
Definition TWIST_CONTROLLER_UPDATE_FREQUENCY : Z := 10.

(** ** Observable actions of the node

    What the node does to the outside world, in program order: calls of
    [controller.control] (with the arguments passed and the triple returned),
    [rospy.loginfo] lines, calls of the three publishers, and [rate.sleep()]
    on the [rospy.Rate] the loop was given. *)
Inductive log_line :=
| LogControllerOutput (throttle brake steering : Q)
| LogDbwDisabled
| LogDbwTurned (on : bool).

Inductive action :=
| ControlCall (current_vel : option Q) (dbw_enabled : py_flag)
              (linear_vel angular_vel : option Q) (result : Q * Q * Q)
| Loginfo (l : log_line)
| ThrottlePub (m : ThrottleCmd)
| SteerPub (m : SteeringCmd)
| BrakePub (m : BrakeCmd)
| RateSleep (hz : Z).

Definition is_publication (a : action) : bool :=
  match a with
  | ThrottlePub _ | SteerPub _ | BrakePub _ => true
  | _ => false
  end.

Definition is_control_call (a : action) : bool :=
  match a with
  | ControlCall _ _ _ _ _ => true
  | _ => false
  end.

(** The publications, respectively the calls of [control], in a trace. *)
Definition publications (tr : list action) : list action :=
  List.filter is_publication tr.
Definition control_calls (tr : list action) : list action :=
  List.filter is_control_call tr.

(** [DBWNode.publish]. *)
Definition publish (throttle brake steer : Q) : list action :=
  [ ThrottlePub {| t_enable := true; t_pedal_cmd_type := CMD_PERCENT;
                   t_pedal_cmd := throttle |};
    SteerPub {| s_enable := true; s_steering_wheel_angle_cmd := steer |};
    BrakePub {| b_enable := true; b_pedal_cmd_type := CMD_TORQUE;
                b_pedal_cmd := brake |} ].

(** What arrives at the node: a message on one of the three subscribed
    topics, or the loop getting its turn for one iteration. A callback and
    an iteration of the loop are each taken as one step; a callback running
    in the middle of an iteration is not modelled. *)
Inductive event :=
| DbwEnabledMsg (msg : BoolMsg)        (* /vehicle/dbw_enabled *)
| TwistCmdMsg (msg : TwistStamped)     (* /twist_cmd *)
| CurrentVelocityMsg (msg : TwistStamped) (* /current_velocity *)
| LoopTick.

Definition is_dbw_enabled_msg (e : event) : bool :=
  match e with DbwEnabledMsg _ => true | _ => false end.

(** Startup either yields a value or raises. *)
Inductive exn := ConfigurationError.
Inductive result (A : Type) :=
| Ok (a : A)
| Raise (e : exn).
Arguments Ok {A} a.
Arguments Raise {A} e.

(** [None in t] for a tuple of attributes. *)
Definition None_in (t : list (option Q)) : bool :=
  existsb (fun v => match v with None => true | Some _ => false end) t.

(** ** The node *)
Section Node.

(** The controller object and its [control] method: called with the four
    attributes as they are stored, it returns a triple and may update the
    controller's own state. *)
Variable Controller : Type.
Variable control :
  Controller -> option Q -> py_flag -> option Q -> option Q ->
  (Q * Q * Q) * Controller.

(** The attributes of [self]. *)
Record DBWNode := {
  controller : Controller;
  current_vel : option Q;
  current_ang_vel : option Q;
  linear_vel : option Q;
  angular_vel : option Q;
  dbw_enabled : py_flag;
  throttle : Q;
  steering : Q;
  brake : Q
}.

(** The attribute assignments at the end of [__init__]. *)
Definition initial_node (c : Controller) : DBWNode :=
  {| controller := c;
     current_vel := None;
     current_ang_vel := None;
     linear_vel := None;
     angular_vel := None;
     dbw_enabled := PyBool true;
     throttle := 0; steering := 0; brake := 0 |}.

(** [dbw_enabled_cb]: stores the message itself, then logs. *)
Definition dbw_enabled_cb (self : DBWNode) (msg : BoolMsg)
  : DBWNode * list action :=
  let self' :=
    {| controller := controller self;
       current_vel := current_vel self;
       current_ang_vel := current_ang_vel self;
       linear_vel := linear_vel self;
       angular_vel := angular_vel self;
       dbw_enabled := PyBoolMsg msg;
       throttle := throttle self;
       steering := steering self;
       brake := brake self |} in
  (self', [Loginfo (LogDbwTurned (truthy (dbw_enabled self')))]).

(** [twist_cb]. *)
Definition twist_cb (self : DBWNode) (msg : TwistStamped) : DBWNode :=
  {| controller := controller self;
     current_vel := current_vel self;
     current_ang_vel := current_ang_vel self;
     linear_vel := Some (x (linear (twist msg)));
     angular_vel := Some (z (angular (twist msg)));
     dbw_enabled := dbw_enabled self;
     throttle := throttle self;
     steering := steering self;
     brake := brake self |}.

(** [velocity_cb]. *)
Definition velocity_cb (self : DBWNode) (msg : TwistStamped) : DBWNode :=
  {| controller := controller self;
     current_vel := Some (x (linear (twist msg)));
     current_ang_vel := current_ang_vel self;
     linear_vel := linear_vel self;
     angular_vel := angular_vel self;
     dbw_enabled := dbw_enabled self;
     throttle := throttle self;
     steering := steering self;
     brake := brake self |}.

(** The guard of the first [if] of the loop:
    [not None in (self.current_vel, self.linear_vel, self.angular_vel)]. *)
Definition inputs_ready (self : DBWNode) : bool :=
  negb (None_in [current_vel self; linear_vel self; angular_vel self]).

(** The guarded assignment: call [control] on the stored attributes and
    bind the returned triple to [throttle], [brake], [steering]. *)
Definition control_result (self : DBWNode) : Q * Q * Q :=
  fst (control (controller self) (current_vel self) (dbw_enabled self)
               (linear_vel self) (angular_vel self)).

Definition call_control (self : DBWNode) : DBWNode * list action :=
  let r := control (controller self) (current_vel self) (dbw_enabled self)
                   (linear_vel self) (angular_vel self) in
  ({| controller := snd r;
      current_vel := current_vel self;
      current_ang_vel := current_ang_vel self;
      linear_vel := linear_vel self;
      angular_vel := angular_vel self;
      dbw_enabled := dbw_enabled self;
      throttle := fst (fst (fst r));
      brake := snd (fst (fst r));
      steering := snd (fst r) |},
   [ControlCall (current_vel self) (dbw_enabled self)
                (linear_vel self) (angular_vel self) (fst r)]).

(** One iteration of the [while] loop of [loop]. *)
Definition loop_body (self : DBWNode) : DBWNode * list action :=
  let computed :=
    if inputs_ready self then call_control self else (self, []) in
  let self' := fst computed in
  let sent :=
    if truthy (dbw_enabled self') then
      Loginfo (LogControllerOutput (throttle self') (brake self')
                                   (steering self'))
      :: publish (throttle self') (brake self') (steering self')
    else
      [Loginfo LogDbwDisabled] in
  (self',
   snd computed ++ sent ++ [RateSleep TWIST_CONTROLLER_UPDATE_FREQUENCY]).

(** The node reacting to one event. *)
Definition step (self : DBWNode) (e : event) : DBWNode * list action :=
  match e with
  | DbwEnabledMsg msg => dbw_enabled_cb self msg
  | TwistCmdMsg msg => (twist_cb self msg, [])
  | CurrentVelocityMsg msg => (velocity_cb self msg, [])
  | LoopTick => loop_body self
  end.

(** The node running through a schedule of events (up to shutdown): the
    final attributes and everything it did. *)
Fixpoint run (self : DBWNode) (es : list event) : DBWNode * list action :=
  match es with
  | [] => (self, [])
  | e :: es' =>
      let s1 := step self e in
      let s2 := run (fst s1) es' in
      (fst s2, snd s1 ++ snd s2)
  end.

Definition state_after (self : DBWNode) (es : list event) : DBWNode :=
  fst (run self es).
Definition trace_of (self : DBWNode) (es : list event) : list action :=
  snd (run self es).

(** The triple the node holds for publication. *)
Definition held_outputs (self : DBWNode) : Q * Q * Q :=
  (throttle self, brake self, steering self).

(** [__init__] up to the call of [self.loop()]: the controller is
    constructed from the parameters read; an exception raised by the
    constructor leaves [__init__]. *)
Variable Controller_new : VehicleParameters -> result Controller.

Definition DBWNode_init (server : gmap string Q) : result DBWNode :=
  match Controller_new (read_parameters server) with
  | Ok c => Ok (initial_node c)
  | Raise e => Raise e
  end.

(** [DBWNode()]: construction, then the loop until shutdown. *)
Definition DBWNode_main (server : gmap string Q) (es : list event)
  : result (DBWNode * list action) :=
  match DBWNode_init server with
  | Ok self => Ok (run self es)
  | Raise e => Raise e
  end.

End Node.

Arguments controller {Controller} _.
Arguments current_vel {Controller} _.
Arguments current_ang_vel {Controller} _.
Arguments linear_vel {Controller} _.
Arguments angular_vel {Controller} _.
Arguments dbw_enabled {Controller} _.
Arguments throttle {Controller} _.
Arguments steering {Controller} _.
Arguments brake {Controller} _.
Arguments initial_node {Controller} c.
Arguments inputs_ready {Controller} self.
Arguments held_outputs {Controller} self.
Arguments twist_cb {Controller} self msg.
Arguments velocity_cb {Controller} self msg.
Arguments dbw_enabled_cb {Controller} self msg.
Arguments control_result {Controller} control self.
Arguments call_control {Controller} control self.
Arguments loop_body {Controller} control self.
Arguments step {Controller} control self e.
Arguments run {Controller} control self es.
Arguments state_after {Controller} control self es.
Arguments trace_of {Controller} control self es.
Arguments DBWNode_init {Controller} Controller_new server.
Arguments DBWNode_main {Controller} control Controller_new server es.

(** Modelled from the spec: the constructor [Controller.__init__] of
    [twist_controller.py], a file that is not among the sources. The
    specification makes invalid vehicle parameters a configuration error that
    is fatal at construction; [build] is whatever the constructor sets up
    from parameters that pass. *)
Definition Controller_init {Controller : Type}
    (build : VehicleParameters -> Controller) (p : VehicleParameters)
  : result Controller :=
  if parameters_valid p then Ok (build p) else Raise ConfigurationError.

(** [self.dbw_enabled = v], as an update of the attributes. *)
Definition with_dbw_enabled {Controller : Type} (v : py_flag)
    (self : DBWNode Controller) : DBWNode Controller :=
  {| controller := controller self;
     current_vel := current_vel self;
     current_ang_vel := current_ang_vel self;
     linear_vel := linear_vel self;
     angular_vel := angular_vel self;
     dbw_enabled := v;
     throttle := throttle self;
     steering := steering self;
     brake := brake self |}.

(** [publish] applied to a triple in the order [control] returns it. *)
Definition publish_outputs (o : Q * Q * Q) : list action :=
  publish (fst (fst o)) (snd (fst o)) (snd o).

(** ** Reading a history of events

    These functions describe a schedule of events from the outside, without
    reference to the node: which topics have been heard from, and what the
    last message on each topic carried. *)

Definition is_twist_cmd_msg (e : event) : bool :=
  match e with TwistCmdMsg _ => true | _ => false end.
Definition is_current_velocity_msg (e : event) : bool :=
  match e with CurrentVelocityMsg _ => true | _ => false end.

(** All three inputs have been observed: a message on /current_velocity
    (current velocity) and one on /twist_cmd (both setpoints). *)
Definition all_inputs_observed (es : list event) : bool :=
  existsb is_current_velocity_msg es && existsb is_twist_cmd_msg es.

(** The most recent value received for each input, starting from [v0]. *)
Definition latest_current_vel (v0 : option Q) (es : list event) : option Q :=
  fold_left (fun v e => match e with
                        | CurrentVelocityMsg m => Some (x (linear (twist m)))
                        | _ => v
                        end) es v0.
Definition latest_linear_vel (v0 : option Q) (es : list event) : option Q :=
  fold_left (fun v e => match e with
                        | TwistCmdMsg m => Some (x (linear (twist m)))
                        | _ => v
                        end) es v0.
Definition latest_angular_vel (v0 : option Q) (es : list event) : option Q :=
  fold_left (fun v e => match e with
                        | TwistCmdMsg m => Some (z (angular (twist m)))
                        | _ => v
                        end) es v0.
Definition latest_dbw_enabled (v0 : py_flag) (es : list event) : py_flag :=
  fold_left (fun v e => match e with
                        | DbwEnabledMsg m => PyBoolMsg m
                        | _ => v
                        end) es v0.

(** No message on /vehicle/dbw_enabled in the schedule. *)
Definition no_dbw_enabled_msg (es : list event) : bool :=
  forallb (fun e => negb (is_dbw_enabled_msg e)) es.

(** No enable message ([data = true]) in the schedule. *)
Definition no_enable_msg (es : list event) : bool :=
  forallb (fun e => match e with
                    | DbwEnabledMsg m => negb (data m)
                    | _ => true
                    end) es.

(** The triple returned by the last call of [control] in a trace, or [o0]
    when the trace has none. *)
Definition last_control_result (o0 : Q * Q * Q) (tr : list action)
  : Q * Q * Q :=
  fold_left (fun o a => match a with
                        | ControlCall _ _ _ _ r => r
                        | _ => o
                        end) tr o0.

(** The [rate.sleep()] calls in a trace. *)
Definition rate_sleeps (tr : list action) : list action :=
  List.filter (fun a => match a with RateSleep _ => true | _ => false end) tr.

(** ** Counting and classifying

    Further readings of a schedule and of a trace, used to state what the
    node does over a whole run. *)

Definition is_loop_tick (e : event) : bool :=
  match e with LoopTick => true | _ => false end.

(** The number of loop iterations, respectively of messages on
    /vehicle/dbw_enabled, in a schedule. *)
Definition ticks (es : list event) : nat :=
  length (List.filter is_loop_tick es).
Definition dbw_enabled_msgs (es : list event) : nat :=
  length (List.filter is_dbw_enabled_msg es).

(** The schedule has messages only. *)
Definition no_loop_tick (es : list event) : bool :=
  forallb (fun e => negb (is_loop_tick e)) es.

(** A call of [control] was passed three numbers. *)
Definition control_args_present (a : action) : bool :=
  match a with
  | ControlCall (Some _) _ (Some _) (Some _) _ => true
  | ControlCall _ _ _ _ _ => false
  | _ => true
  end.

(** A call of [control] was passed a flag that is true as a condition. *)
Definition control_flag_truthy (a : action) : bool :=
  match a with
  | ControlCall _ en _ _ _ => truthy en
  | _ => true
  end.

(** The two log lines about the state of drive-by-wire. *)
Definition is_disabled_log (a : action) : bool :=
  match a with Loginfo LogDbwDisabled => true | _ => false end.
Definition is_turned_log (a : action) : bool :=
  match a with Loginfo (LogDbwTurned _) => true | _ => false end.

(** The triples returned by the calls of [control] in a trace. *)
Definition control_results (tr : list action) : list (Q * Q * Q) :=
  flat_map (fun a => match a with
                     | ControlCall _ _ _ _ r => [r]
                     | _ => []
                     end) tr.

(** The parameter names [__init__] asks the parameter server for. *)
Definition parameter_names : list string :=
  [ "~vehicle_mass"; "~fuel_capacity"; "~brake_deadband"; "~decel_limit";
    "~accel_limit"; "~wheel_radius"; "~wheel_base"; "~steer_ratio";
    "~max_lat_accel"; "~max_steer_angle" ].

(** ** Sample data *)

(** A stamped twist with the two components the node reads. *)
Definition stamped (linear_x angular_z : Q) : TwistStamped :=
  {| twist := {| linear := {| x := linear_x; y := 0; z := 0 |};
                 angular := {| x := 0; y := 0; z := angular_z |} |} |}.

(** A stand-in controller for concrete runs: its state counts the calls, and
    it returns three distinct numbers built from what it was passed. *)
Definition probe_control (calls : nat) (cv : option Q) (en : py_flag)
    (lv av : option Q) : (Q * Q * Q) * nat :=
  ((if truthy en then 0.5 else 0, default 0 lv + 20, default 0 av - 7),
   S calls).

Definition server_positive_decel_limit : gmap string Q :=
  {[ "~decel_limit" := 2 ]}.

Definition sample_schedule : list event :=
  [ CurrentVelocityMsg (stamped 4 0); LoopTick;
    TwistCmdMsg (stamped 5 0.25); LoopTick ].

(** The node with the stand-in controller, once both input topics have
    been heard from, and just after construction followed by one velocity
    message and one tick. *)
Definition ready_node : DBWNode nat :=
  state_after probe_control (initial_node 0%nat)
              [CurrentVelocityMsg (stamped 4 0); TwistCmdMsg (stamped 5 0.25)].

Definition early_schedule : list event :=
  [CurrentVelocityMsg (stamped 4 0); LoopTick].

Definition later_schedule : list event :=
  [DbwEnabledMsg {| data := false |}; LoopTick;
   CurrentVelocityMsg (stamped 6 0)].

(** A schedule of messages only, and one with messages on all three
    topics between ticks. *)
Definition message_schedule : list event :=
  [ TwistCmdMsg (stamped 5 0.25); DbwEnabledMsg {| data := false |};
    CurrentVelocityMsg (stamped 4 0); TwistCmdMsg (stamped 3 0) ].

Definition mixed_schedule : list event :=
  [ LoopTick; CurrentVelocityMsg (stamped 4 0);
    DbwEnabledMsg {| data := false |}; LoopTick;
    TwistCmdMsg (stamped 5 0.25); LoopTick;
    DbwEnabledMsg {| data := true |}; LoopTick ].

(** * Properties *)

Section NodeProperties.

Variable Controller : Type.
Variable control :
  Controller -> option Q -> py_flag -> option Q -> option Q ->
  (Q * Q * Q) * Controller.

Abbreviation node := (DBWNode Controller).

(** ** The loop body, statement by statement *)

Lemma inputs_ready_true (self : node) :
  inputs_ready self = true <->
  current_vel self <> None /\ linear_vel self <> None /\
  angular_vel self <> None.
Proof.
  unfold inputs_ready, None_in; simpl.
  destruct (current_vel self), (linear_vel self), (angular_vel self);
    simpl; intuition congruence.
Qed.

Lemma loop_body_keeps_inputs (self : node) :
  current_vel (fst (loop_body control self)) = current_vel self /\
  linear_vel (fst (loop_body control self)) = linear_vel self /\
  angular_vel (fst (loop_body control self)) = angular_vel self /\
  dbw_enabled (fst (loop_body control self)) = dbw_enabled self.
Proof.
  unfold loop_body; destruct (inputs_ready self); simpl; auto.
Qed.

Lemma loop_body_held_outputs (self : node) :
  held_outputs (fst (loop_body control self)) =
  if inputs_ready self then control_result control self
  else held_outputs self.
Proof.
  unfold loop_body, held_outputs, control_result.
  destruct (inputs_ready self); simpl; [|reflexivity].
  destruct (control _ _ _ _ _) as [[[th br] st] c']; reflexivity.
Qed.

Lemma control_calls_loop_body (self : node) :
  control_calls (snd (loop_body control self)) =
  if inputs_ready self then
    [ControlCall (current_vel self) (dbw_enabled self)
                 (linear_vel self) (angular_vel self)
                 (control_result control self)]
  else [].
Proof.
  unfold loop_body, control_result.
  destruct (inputs_ready self); simpl;
    match goal with |- context [truthy ?v] => destruct (truthy v) end;
    reflexivity.
Qed.

Lemma publications_loop_body (self : node) :
  publications (snd (loop_body control self)) =
  if truthy (dbw_enabled self) then
    publish_outputs (held_outputs (fst (loop_body control self)))
  else [].
Proof.
  unfold loop_body, publish_outputs, held_outputs.
  destruct (inputs_ready self); simpl;
    destruct (truthy (dbw_enabled self)); reflexivity.
Qed.

Lemma rate_sleeps_loop_body (self : node) :
  rate_sleeps (snd (loop_body control self)) =
  [RateSleep TWIST_CONTROLLER_UPDATE_FREQUENCY].
Proof.
  unfold loop_body.
  destruct (inputs_ready self); simpl;
    destruct (truthy (dbw_enabled self)); reflexivity.
Qed.

(** ** Runs *)

Lemma state_after_cons (self : node) e es :
  state_after control self (e :: es) =
  state_after control (fst (step control self e)) es.
Proof. reflexivity. Qed.

Lemma trace_of_cons (self : node) e es :
  trace_of control self (e :: es) =
  snd (step control self e) ++ trace_of control (fst (step control self e)) es.
Proof. reflexivity. Qed.

Lemma run_app (es1 es2 : list event) : forall self : node,
  run control self (es1 ++ es2) =
  (state_after control (state_after control self es1) es2,
   trace_of control self es1 ++
   trace_of control (state_after control self es1) es2).
Proof.
  unfold state_after, trace_of.
  induction es1 as [|e es1 IH]; intros self; simpl.
  - destruct (run control self es2); reflexivity.
  - rewrite IH; simpl. rewrite <- app_assoc. reflexivity.
Qed.

(** What each event does to the four stored inputs. *)
Lemma step_current_vel (self : node) e :
  current_vel (fst (step control self e)) =
  match e with
  | CurrentVelocityMsg m => Some (x (linear (twist m)))
  | _ => current_vel self
  end.
Proof. destruct e; simpl; try reflexivity. apply loop_body_keeps_inputs. Qed.

Lemma step_linear_vel (self : node) e :
  linear_vel (fst (step control self e)) =
  match e with
  | TwistCmdMsg m => Some (x (linear (twist m)))
  | _ => linear_vel self
  end.
Proof. destruct e; simpl; try reflexivity. apply loop_body_keeps_inputs. Qed.

Lemma step_angular_vel (self : node) e :
  angular_vel (fst (step control self e)) =
  match e with
  | TwistCmdMsg m => Some (z (angular (twist m)))
  | _ => angular_vel self
  end.
Proof. destruct e; simpl; try reflexivity. apply loop_body_keeps_inputs. Qed.

Lemma step_dbw_enabled (self : node) e :
  dbw_enabled (fst (step control self e)) =
  match e with
  | DbwEnabledMsg m => PyBoolMsg m
  | _ => dbw_enabled self
  end.
Proof. destruct e; simpl; try reflexivity. apply loop_body_keeps_inputs. Qed.

(** After a run each stored input is the latest value received for it. *)
Lemma current_vel_state_after es : forall self : node,
  current_vel (state_after control self es) =
  latest_current_vel (current_vel self) es.
Proof.
  induction es as [|e es IH]; intros self; [reflexivity|].
  rewrite state_after_cons, IH, step_current_vel. reflexivity.
Qed.

Lemma linear_vel_state_after es : forall self : node,
  linear_vel (state_after control self es) =
  latest_linear_vel (linear_vel self) es.
Proof.
  induction es as [|e es IH]; intros self; [reflexivity|].
  rewrite state_after_cons, IH, step_linear_vel. reflexivity.
Qed.

Lemma angular_vel_state_after es : forall self : node,
  angular_vel (state_after control self es) =
  latest_angular_vel (angular_vel self) es.
Proof.
  induction es as [|e es IH]; intros self; [reflexivity|].
  rewrite state_after_cons, IH, step_angular_vel. reflexivity.
Qed.

Lemma dbw_enabled_state_after es : forall self : node,
  dbw_enabled (state_after control self es) =
  latest_dbw_enabled (dbw_enabled self) es.
Proof.
  induction es as [|e es IH]; intros self; [reflexivity|].
  rewrite state_after_cons, IH, step_dbw_enabled. reflexivity.
Qed.

(** ** Histories *)

Lemma latest_current_vel_kept es : forall q,
  latest_current_vel (Some q) es <> None.
Proof.
  induction es as [|e es IH]; intros q; [discriminate|].
  destruct e; simpl; auto.
Qed.

Lemma latest_current_vel_observed es : forall v0,
  existsb is_current_velocity_msg es = true -> latest_current_vel v0 es <> None.
Proof.
  induction es as [|e es IH]; intros v0 H; [discriminate|].
  destruct e; simpl in *; auto using latest_current_vel_kept.
Qed.

Lemma latest_current_vel_unobserved es : forall v0,
  existsb is_current_velocity_msg es = false ->
  latest_current_vel v0 es = v0.
Proof.
  induction es as [|e es IH]; intros v0 H; [reflexivity|].
  simpl in H. apply orb_false_iff in H as [He Hes].
  destruct e; try discriminate; simpl; auto.
Qed.

Lemma latest_linear_vel_kept es : forall q,
  latest_linear_vel (Some q) es <> None.
Proof.
  induction es as [|e es IH]; intros q; [discriminate|].
  destruct e; simpl; auto.
Qed.

Lemma latest_linear_vel_observed es : forall v0,
  existsb is_twist_cmd_msg es = true -> latest_linear_vel v0 es <> None.
Proof.
  induction es as [|e es IH]; intros v0 H; [discriminate|].
  destruct e; simpl in *; auto using latest_linear_vel_kept.
Qed.

Lemma latest_linear_vel_unobserved es : forall v0,
  existsb is_twist_cmd_msg es = false -> latest_linear_vel v0 es = v0.
Proof.
  induction es as [|e es IH]; intros v0 H; [reflexivity|].
  simpl in H. apply orb_false_iff in H as [He Hes].
  destruct e; try discriminate; simpl; auto.
Qed.

Lemma latest_angular_vel_kept es : forall q,
  latest_angular_vel (Some q) es <> None.
Proof.
  induction es as [|e es IH]; intros q; [discriminate|].
  destruct e; simpl; auto.
Qed.

Lemma latest_angular_vel_observed es : forall v0,
  existsb is_twist_cmd_msg es = true -> latest_angular_vel v0 es <> None.
Proof.
  induction es as [|e es IH]; intros v0 H; [discriminate|].
  destruct e; simpl in *; auto using latest_angular_vel_kept.
Qed.

Lemma latest_dbw_enabled_unobserved es : forall v0,
  no_dbw_enabled_msg es = true -> latest_dbw_enabled v0 es = v0.
Proof.
  induction es as [|e es IH]; intros v0 H; [reflexivity|].
  simpl in H. apply andb_true_iff in H as [He Hes].
  destruct e; try discriminate; simpl; auto.
Qed.

(** From the attributes [__init__] sets, the guard of the loop holds
    exactly when both input topics have been heard from. *)
Lemma inputs_ready_after (c : Controller) (es : list event) :
  inputs_ready (state_after control (initial_node c) es) =
  all_inputs_observed es.
Proof.
  unfold inputs_ready, all_inputs_observed, None_in; simpl.
  rewrite current_vel_state_after, linear_vel_state_after,
    angular_vel_state_after; simpl.
  destruct (existsb is_current_velocity_msg es) eqn:Hv.
  - pose proof (latest_current_vel_observed es None Hv) as Hc.
    destruct (latest_current_vel None es); [clear Hc|congruence].
    destruct (existsb is_twist_cmd_msg es) eqn:Ht.
    + pose proof (latest_linear_vel_observed es None Ht) as Hl.
      pose proof (latest_angular_vel_observed es None Ht) as Ha.
      destruct (latest_linear_vel None es); [|congruence].
      destruct (latest_angular_vel None es); [|congruence].
      reflexivity.
    + rewrite (latest_linear_vel_unobserved es None Ht). reflexivity.
  - rewrite (latest_current_vel_unobserved es None Hv). reflexivity.
Qed.

(** ** Readiness never goes away *)

Lemma step_keeps_ready (self : node) e :
  inputs_ready self = true -> inputs_ready (fst (step control self e)) = true.
Proof.
  rewrite !inputs_ready_true.
  rewrite step_current_vel, step_linear_vel, step_angular_vel.
  intros (Hc & Hl & Ha). destruct e; repeat split; auto; discriminate.
Qed.

Lemma run_keeps_ready es : forall self : node,
  inputs_ready self = true ->
  inputs_ready (state_after control self es) = true.
Proof.
  induction es as [|e es IH]; intros self H; [exact H|].
  rewrite state_after_cons. apply IH, step_keeps_ready, H.
Qed.

Lemma control_calls_app (t1 t2 : list action) :
  control_calls (t1 ++ t2) = control_calls t1 ++ control_calls t2.
Proof. unfold control_calls. apply List.filter_app. Qed.

Lemma control_calls_step_not_ready (self : node) e :
  inputs_ready self = false -> control_calls (snd (step control self e)) = [].
Proof.
  intros H. destruct e; try reflexivity. unfold step.
  rewrite control_calls_loop_body, H. reflexivity.
Qed.

(** While the guard is still false at the end of a run, [control] has not
    been called anywhere in it. *)
Lemma no_control_call_before_ready es : forall self : node,
  inputs_ready (state_after control self es) = false ->
  control_calls (trace_of control self es) = [].
Proof.
  induction es as [|e es IH]; intros self H; [reflexivity|].
  rewrite trace_of_cons, control_calls_app.
  rewrite state_after_cons in H. rewrite (IH _ H), app_nil_r.
  apply control_calls_step_not_ready.
  destruct (inputs_ready self) eqn:Hr; [|reflexivity].
  rewrite (run_keeps_ready es _ (step_keeps_ready self e Hr)) in H.
  discriminate.
Qed.

(** ** The held outputs and the history of [control] calls *)

Lemma last_control_result_app o0 (t1 t2 : list action) :
  last_control_result o0 (t1 ++ t2) =
  last_control_result (last_control_result o0 t1) t2.
Proof. apply fold_left_app. Qed.

Lemma last_control_result_none (tr : list action) : forall o0,
  control_calls tr = [] -> last_control_result o0 tr = o0.
Proof.
  induction tr as [|a tr IH]; intros o0 H; [reflexivity|].
  destruct a; simpl in H |- *; try discriminate; auto.
Qed.

Lemma step_held_outputs (self : node) e :
  held_outputs (fst (step control self e)) =
  last_control_result (held_outputs self) (snd (step control self e)).
Proof.
  destruct e; try reflexivity. unfold step.
  rewrite loop_body_held_outputs. unfold loop_body, control_result.
  destruct (inputs_ready self); simpl;
    match goal with |- context [truthy ?v] => destruct (truthy v) end;
    reflexivity.
Qed.

Lemma held_outputs_after es : forall self : node,
  held_outputs (state_after control self es) =
  last_control_result (held_outputs self) (trace_of control self es).
Proof.
  induction es as [|e es IH]; intros self; [reflexivity|].
  rewrite state_after_cons, trace_of_cons, last_control_result_app, IH.
  rewrite step_held_outputs. reflexivity.
Qed.

(** ** The enable flag *)

Lemma latest_dbw_enabled_truthy es : forall v0,
  truthy v0 = true -> truthy (latest_dbw_enabled v0 es) = true.
Proof.
  induction es as [|e es IH]; intros v0 H; [exact H|].
  destruct e; simpl; auto.
Qed.

(** Whatever has been received, the stored flag is true as a Python
    condition. *)
Lemma dbw_enabled_always_truthy (c : Controller) (es : list event) :
  truthy (dbw_enabled (state_after control (initial_node c) es)) = true.
Proof.
  rewrite dbw_enabled_state_after. apply latest_dbw_enabled_truthy.
  reflexivity.
Qed.

(** [dbw_enabled_cb] announces "on" for a message with [data = False]. *)
Lemma dbw_enabled_cb_logs_on (self : node) (d : bool) :
  snd (dbw_enabled_cb self {| data := d |}) = [Loginfo (LogDbwTurned true)].
Proof. reflexivity. Qed.

Lemma publish_outputs_nonempty (o : Q * Q * Q) : publish_outputs o <> [].
Proof. discriminate. Qed.

(** ** The claims about the loop *)

(** C1 (as the code behaves). The loop publishes only where the stored flag
    is true as a Python condition; but the flag stored by [dbw_enabled_cb] is
    the message object, which is always true: on a tick after a disable
    message ([data = False]) with no enable message after it, the three
    commands are published all the same. *)
Theorem publishes_after_disable_message
    (c : Controller) (pre post : list event) :
  no_enable_msg post = true ->
  let self :=
    state_after control (initial_node c)
                (pre ++ DbwEnabledMsg {| data := false |} :: post) in
  publications (snd (loop_body control self)) =
    publish_outputs (held_outputs (fst (loop_body control self))) /\
  publications (snd (loop_body control self)) <> [].
Proof.
  intros _ self.
  rewrite publications_loop_body.
  unfold self. rewrite dbw_enabled_always_truthy.
  split; [reflexivity | apply publish_outputs_nonempty].
Qed.

(** C2. On a loop tick [control] is called if and only if none of current
    velocity, linear setpoint and angular setpoint is [None]; counted from
    construction, that is if and only if each of the three has been observed
    at least once, and until then [control] has not run at all, neither on
    this tick nor on an earlier one. *)
Theorem control_runs_iff_inputs_observed :
  (forall self : node,
     control_calls (snd (loop_body control self)) <> [] <->
     current_vel self <> None /\ linear_vel self <> None /\
     angular_vel self <> None) /\
  (forall (c : Controller) (pre : list event),
     let self := state_after control (initial_node c) pre in
     (control_calls (snd (loop_body control self)) <> [] <->
      all_inputs_observed pre = true) /\
     (all_inputs_observed pre = false ->
      control_calls (trace_of control (initial_node c) pre ++
                     snd (loop_body control self)) = [])).
Proof.
  split.
  - intros self. rewrite <- inputs_ready_true, control_calls_loop_body.
    destruct (inputs_ready self); split; congruence.
  - intros c pre self. split.
    + rewrite control_calls_loop_body. unfold self.
      rewrite inputs_ready_after.
      destruct (all_inputs_observed pre); split; congruence.
    + intros H. rewrite control_calls_app, control_calls_loop_body.
      unfold self. rewrite inputs_ready_after, H, app_nil_r.
      apply no_control_call_before_ready.
      rewrite inputs_ready_after. exact H.
Qed.

(** C3. On a tick where the three inputs are ready, [control] is called
    whatever value the enable flag holds, and the triple it returns becomes
    the held outputs; the flag decides only whether that triple is
    published. *)
Theorem control_runs_whatever_the_flag (self : node) (v : py_flag) :
  inputs_ready self = true ->
  let self_v := with_dbw_enabled v self in
  control_calls (snd (loop_body control self_v)) =
    [ControlCall (current_vel self) v (linear_vel self) (angular_vel self)
                 (control_result control self_v)] /\
  held_outputs (fst (loop_body control self_v)) =
    control_result control self_v /\
  publications (snd (loop_body control self_v)) =
    if truthy v then publish_outputs (control_result control self_v) else [].
Proof.
  intros H self_v.
  assert (Hv : inputs_ready self_v = true) by exact H.
  rewrite control_calls_loop_body, publications_loop_body,
    loop_body_held_outputs, Hv.
  repeat split; reflexivity.
Qed.

(** C7. [control] is called with (current velocity, enable flag, linear
    velocity setpoint, angular velocity setpoint), in this order, and the
    triple it returns is bound, in order, to [throttle], [brake] and
    [steering]. *)
Theorem control_argument_and_result_order (self : node) :
  inputs_ready self = true ->
  let r := control (controller self) (current_vel self) (dbw_enabled self)
                   (linear_vel self) (angular_vel self) in
  let self' := fst (loop_body control self) in
  (exists cv lv av,
     current_vel self = Some cv /\ linear_vel self = Some lv /\
     angular_vel self = Some av /\
     control_calls (snd (loop_body control self)) =
       [ControlCall (Some cv) (dbw_enabled self) (Some lv) (Some av)
                    (fst r)]) /\
  throttle self' = fst (fst (fst r)) /\
  brake self' = snd (fst (fst r)) /\
  steering self' = snd (fst r) /\
  controller self' = snd r.
Proof.
  intros H r self'. split.
  - rewrite control_calls_loop_body, H.
    apply inputs_ready_true in H as (Hc & Hl & Ha).
    unfold control_result. subst r.
    destruct (current_vel self) as [cv|]; [|congruence].
    destruct (linear_vel self) as [lv|]; [|congruence].
    destruct (angular_vel self) as [av|]; [|congruence].
    exists cv, lv, av. repeat split; reflexivity.
  - unfold self', loop_body. rewrite H. repeat split; reflexivity.
Qed.

(** C6 (amended). The loop sleeps once per tick on a rate configured with
    [TWIST_CONTROLLER_UPDATE_FREQUENCY], which is 10 and so at least 10 Hz.
    On a tick by which all three inputs have been observed it calls
    [control] exactly once, passing the most recently stored value of each
    input; on a tick before that it does not call [control]. *)
Theorem control_once_per_ready_tick (c : Controller) (pre : list event) :
  let self := state_after control (initial_node c) pre in
  let tick := snd (loop_body control self) in
  TWIST_CONTROLLER_UPDATE_FREQUENCY = 10%Z /\
  (10 <= TWIST_CONTROLLER_UPDATE_FREQUENCY)%Z /\
  rate_sleeps tick = [RateSleep TWIST_CONTROLLER_UPDATE_FREQUENCY] /\
  control_calls tick =
    if all_inputs_observed pre then
      [ControlCall (latest_current_vel None pre)
                   (latest_dbw_enabled (PyBool true) pre)
                   (latest_linear_vel None pre)
                   (latest_angular_vel None pre)
                   (control_result control self)]
    else [].
Proof.
  intros self tick. split; [reflexivity|]. split; [discriminate|].
  split; [apply rate_sleeps_loop_body|].
  unfold tick. rewrite control_calls_loop_body.
  unfold self at 1. rewrite inputs_ready_after.
  destruct (all_inputs_observed pre); [|reflexivity].
  unfold self at 1 2 3 4.
  rewrite current_vel_state_after, linear_vel_state_after,
    angular_vel_state_after, dbw_enabled_state_after.
  reflexivity.
Qed.

(** C8. As long as no message has arrived on /vehicle/dbw_enabled, the flag
    is the [True] it was initialised to and every tick calls the three
    publishers with the held outputs: a throttle command carrying
    [throttle], a steering command carrying [steering] and a brake command
    carrying [brake]. The held outputs start as (0, 0, 0), and commands
    carrying 0 are what is sent until [control] has run. *)
Theorem publishes_while_no_dbw_message (c : Controller) (pre : list event) :
  no_dbw_enabled_msg pre = true ->
  let self := state_after control (initial_node c) pre in
  let self' := fst (loop_body control self) in
  dbw_enabled self = PyBool true /\
  publications (snd (loop_body control self)) =
    [ ThrottlePub {| t_enable := true; t_pedal_cmd_type := CMD_PERCENT;
                     t_pedal_cmd := throttle self' |};
      SteerPub {| s_enable := true; s_steering_wheel_angle_cmd := steering self' |};
      BrakePub {| b_enable := true; b_pedal_cmd_type := CMD_TORQUE;
                  b_pedal_cmd := brake self' |} ] /\
  held_outputs self' =
    (if all_inputs_observed pre then control_result control self
     else (0, 0, 0)) /\
  held_outputs (initial_node c) = (0, 0, 0) /\
  (all_inputs_observed pre = false ->
   publications (snd (loop_body control self)) =
    [ ThrottlePub {| t_enable := true; t_pedal_cmd_type := CMD_PERCENT;
                     t_pedal_cmd := 0 |};
      SteerPub {| s_enable := true; s_steering_wheel_angle_cmd := 0 |};
      BrakePub {| b_enable := true; b_pedal_cmd_type := CMD_TORQUE;
                  b_pedal_cmd := 0 |} ]).
Proof.
  intros H self self'.
  assert (Hflag : dbw_enabled self = PyBool true).
  { unfold self. rewrite dbw_enabled_state_after.
    apply latest_dbw_enabled_unobserved, H. }
  assert (Hheld : held_outputs self' =
                  if all_inputs_observed pre then control_result control self
                  else (0, 0, 0)).
  { unfold self'. rewrite loop_body_held_outputs.
    unfold self at 1. rewrite inputs_ready_after.
    destruct (all_inputs_observed pre) eqn:Hobs; [reflexivity|].
    unfold self. rewrite held_outputs_after, last_control_result_none.
    - reflexivity.
    - apply no_control_call_before_ready.
      rewrite inputs_ready_after. exact Hobs. }
  assert (Hpub : publications (snd (loop_body control self)) =
                 publish (throttle self') (brake self') (steering self')).
  { rewrite publications_loop_body, Hflag. reflexivity. }
  split; [exact Hflag|]. split; [exact Hpub|]. split; [exact Hheld|].
  split; [reflexivity|].
  intros Hobs. rewrite Hobs in Hheld. unfold held_outputs in Hheld.
  injection Hheld as Ht Hb Hs. rewrite Hpub, Ht, Hb, Hs. reflexivity.
Qed.

(** The callbacks store numbers, never [None]. *)
Lemma callbacks_never_store_None (self : node) (msg : TwistStamped) :
  current_vel (velocity_cb self msg) <> None /\
  linear_vel (twist_cb self msg) <> None /\
  angular_vel (twist_cb self msg) <> None.
Proof. repeat split; discriminate. Qed.

(** C9. Readiness is monotone: once current velocity, linear setpoint and
    angular setpoint are all set, they stay set through every later event
    (the callbacks never store [None]), and every later tick calls
    [control]. *)
Theorem readiness_is_monotone (self : node) (es : list event) :
  inputs_ready self = true ->
  let later := state_after control self es in
  inputs_ready later = true /\
  control_calls (snd (loop_body control later)) =
    [ControlCall (current_vel later) (dbw_enabled later)
                 (linear_vel later) (angular_vel later)
                 (control_result control later)] /\
  current_vel later <> None /\ linear_vel later <> None /\
  angular_vel later <> None.
Proof.
  intros H later.
  assert (Hl : inputs_ready later = true) by (apply run_keeps_ready, H).
  split; [exact Hl|]. split.
  - rewrite control_calls_loop_body, Hl. reflexivity.
  - apply inputs_ready_true, Hl.
Qed.

(** C10. On a tick where the flag is true as a Python condition while the
    three inputs are not all observed, the node does not call [control] and
    does not change its attributes, and it still calls the three publishers:
    the throttle, steering and brake commands carry the triple it holds.
    Counted from construction, [control] has then never run, and the
    commands carry the zeros of [__init__]. *)
Theorem publishes_held_outputs_when_not_ready :
  (forall self : node,
     truthy (dbw_enabled self) = true ->
     inputs_ready self = false ->
     loop_body control self =
       (self,
        [ Loginfo (LogControllerOutput (throttle self) (brake self)
                                       (steering self));
          ThrottlePub {| t_enable := true; t_pedal_cmd_type := CMD_PERCENT;
                         t_pedal_cmd := throttle self |};
          SteerPub {| s_enable := true;
                      s_steering_wheel_angle_cmd := steering self |};
          BrakePub {| b_enable := true; b_pedal_cmd_type := CMD_TORQUE;
                      b_pedal_cmd := brake self |};
          RateSleep TWIST_CONTROLLER_UPDATE_FREQUENCY ])) /\
  (forall (c : Controller) (pre : list event),
     let self := state_after control (initial_node c) pre in
     truthy (dbw_enabled self) = true ->
     inputs_ready self = false ->
     control_calls (trace_of control (initial_node c) pre ++
                    snd (loop_body control self)) = [] /\
     held_outputs self = (0, 0, 0) /\
     publications (snd (loop_body control self)) =
    [ ThrottlePub {| t_enable := true; t_pedal_cmd_type := CMD_PERCENT;
                     t_pedal_cmd := 0 |};
      SteerPub {| s_enable := true; s_steering_wheel_angle_cmd := 0 |};
      BrakePub {| b_enable := true; b_pedal_cmd_type := CMD_TORQUE;
                  b_pedal_cmd := 0 |} ]).
Proof.
  assert (Hbody : forall self : node,
             truthy (dbw_enabled self) = true ->
             inputs_ready self = false ->
             loop_body control self =
             (self,
              Loginfo (LogControllerOutput (throttle self) (brake self)
                                           (steering self))
              :: publish (throttle self) (brake self) (steering self)
              ++ [RateSleep TWIST_CONTROLLER_UPDATE_FREQUENCY])).
  { intros self Ht Hr. unfold loop_body. rewrite Hr; simpl. rewrite Ht.
    reflexivity. }
  split; [exact Hbody|].
  intros c pre self Ht Hr.
  assert (Hcalls : control_calls (trace_of control (initial_node c) pre) = [])
    by (apply no_control_call_before_ready, Hr).
  assert (Hheld : held_outputs self = (0, 0, 0)).
  { unfold self. rewrite held_outputs_after.
    rewrite last_control_result_none; [reflexivity | exact Hcalls]. }
  split; [|split; [exact Hheld|]].
  - rewrite control_calls_app, Hcalls, control_calls_loop_body, Hr.
    reflexivity.
  - rewrite (Hbody self Ht Hr). unfold held_outputs in Hheld.
    injection Hheld as Hth Hb Hs. rewrite Hth, Hb, Hs. reflexivity.
Qed.

(** ** Whole runs *)

Lemma step_current_ang_vel (self : node) e :
  current_ang_vel (fst (step control self e)) = current_ang_vel self.
Proof.
  destruct e; try reflexivity. unfold step, loop_body.
  destruct (inputs_ready self); reflexivity.
Qed.

Lemma step_truthy (self : node) e :
  truthy (dbw_enabled self) = true ->
  truthy (dbw_enabled (fst (step control self e))) = true.
Proof. rewrite step_dbw_enabled. destruct e; auto. Qed.

Lemma publications_app (t1 t2 : list action) :
  publications (t1 ++ t2) = publications t1 ++ publications t2.
Proof. unfold publications. apply List.filter_app. Qed.

Lemma rate_sleeps_app (t1 t2 : list action) :
  rate_sleeps (t1 ++ t2) = rate_sleeps t1 ++ rate_sleeps t2.
Proof. unfold rate_sleeps. apply List.filter_app. Qed.

Lemma publications_step (self : node) e :
  publications (snd (step control self e)) =
  if is_loop_tick e && truthy (dbw_enabled self) then
    publish_outputs (held_outputs (fst (step control self e)))
  else [].
Proof.
  destruct e; try reflexivity. unfold step.
  rewrite publications_loop_body. reflexivity.
Qed.

Lemma ticks_cons e es :
  ticks (e :: es) = ((if is_loop_tick e then 1 else 0) + ticks es)%nat.
Proof. unfold ticks. simpl. destruct (is_loop_tick e); reflexivity. Qed.

(** X1. Last writer wins: after any schedule, each stored input is what the
    last message on its topic carried (or what it was before, if there was
    none); ticks and messages on other topics do not touch it. *)
Theorem stored_inputs_are_latest_received (self : node) (es : list event) :
  let later := state_after control self es in
  current_vel later = latest_current_vel (current_vel self) es /\
  linear_vel later = latest_linear_vel (linear_vel self) es /\
  angular_vel later = latest_angular_vel (angular_vel self) es /\
  dbw_enabled later = latest_dbw_enabled (dbw_enabled self) es.
Proof.
  intros later. unfold later.
  rewrite current_vel_state_after, linear_vel_state_after,
    angular_vel_state_after, dbw_enabled_state_after.
  repeat split; reflexivity.
Qed.

(** X2. [current_ang_vel] is set to [None] at construction and no callback
    and no tick ever writes it. *)
Theorem current_ang_vel_never_written (es : list event) :
  (forall self : node,
     current_ang_vel (state_after control self es) = current_ang_vel self) /\
  (forall c : Controller,
     current_ang_vel (state_after control (initial_node c) es) = None).
Proof.
  assert (H : forall self : node,
             current_ang_vel (state_after control self es)
             = current_ang_vel self).
  { induction es as [|e es IH]; intros self; [reflexivity|].
    rewrite state_after_cons, IH. apply step_current_ang_vel. }
  split; [exact H|]. intros c. rewrite H. reflexivity.
Qed.

(** X3. Messages alone have no outward effect: in a schedule without ticks
    nothing is published, [control] is not called, and the controller and
    the held outputs stay as they were. *)
Theorem messages_alone_do_not_actuate (self : node) (es : list event) :
  no_loop_tick es = true ->
  publications (trace_of control self es) = [] /\
  control_calls (trace_of control self es) = [] /\
  controller (state_after control self es) = controller self /\
  held_outputs (state_after control self es) = held_outputs self.
Proof.
  revert self. induction es as [|e es IH]; intros self H.
  - repeat split; reflexivity.
  - simpl in H. apply andb_true_iff in H as [He Hes].
    rewrite trace_of_cons, state_after_cons, publications_app,
      control_calls_app.
    destruct (IH (fst (step control self e)) Hes) as (Hp & Hc & Hk & Hh).
    rewrite Hp, Hc, Hk, Hh.
    destruct e; try discriminate; repeat split; reflexivity.
Qed.

(** X4. The loop sleeps exactly once per iteration, always on the rate of
    [TWIST_CONTROLLER_UPDATE_FREQUENCY]. *)
Theorem one_sleep_per_tick (self : node) (es : list event) :
  rate_sleeps (trace_of control self es) =
  repeat (RateSleep TWIST_CONTROLLER_UPDATE_FREQUENCY) (ticks es).
Proof.
  revert self. induction es as [|e es IH]; intros self; [reflexivity|].
  rewrite trace_of_cons, rate_sleeps_app, IH, ticks_cons.
  destruct e; try reflexivity.
  unfold step. rewrite rate_sleeps_loop_body. reflexivity.
Qed.

(** X5. From construction on every tick publishes, whatever has been
    received on /vehicle/dbw_enabled: a run with [n] ticks makes [3 * n]
    publisher calls. *)
Theorem every_tick_publishes_from_construction
    (c : Controller) (es : list event) :
  length (publications (trace_of control (initial_node c) es)) =
  (3 * ticks es)%nat.
Proof.
  assert (H : forall self : node,
             truthy (dbw_enabled self) = true ->
             length (publications (trace_of control self es)) =
             (3 * ticks es)%nat).
  { induction es as [|e es IH]; intros self Ht; [reflexivity|].
    rewrite trace_of_cons, publications_app, length_app, ticks_cons.
    rewrite (IH _ (step_truthy self e Ht)).
    rewrite publications_step, Ht, andb_true_r.
    destruct (is_loop_tick e); simpl; lia. }
  apply H. reflexivity.
Qed.

(** X6. The "disabled" branch of the loop is never taken after
    construction, and [dbw_enabled_cb] announces "on" for every message,
    whatever its [data]: the log has one "on" line per message on
    /vehicle/dbw_enabled and never an "off" or a "disabled" line. *)
Theorem dbw_log_lines_from_construction (c : Controller) (es : list event) :
  List.filter is_disabled_log (trace_of control (initial_node c) es) = [] /\
  List.filter is_turned_log (trace_of control (initial_node c) es) =
    repeat (Loginfo (LogDbwTurned true)) (dbw_enabled_msgs es).
Proof.
  assert (H : forall self : node,
             truthy (dbw_enabled self) = true ->
             List.filter is_disabled_log (trace_of control self es) = [] /\
             List.filter is_turned_log (trace_of control self es) =
               repeat (Loginfo (LogDbwTurned true)) (dbw_enabled_msgs es)).
  { induction es as [|e es IH]; intros self Ht; [split; reflexivity|].
    rewrite trace_of_cons, !List.filter_app.
    destruct (IH _ (step_truthy self e Ht)) as [Hd Hl]. rewrite Hd, Hl.
    destruct e; try (split; reflexivity).
    unfold step, loop_body.
    destruct (inputs_ready self); simpl; rewrite Ht; split; reflexivity. }
  apply H. reflexivity.
Qed.

(** X7. The three publishers are only ever called together: the
    publications of any run are a sequence of complete groups (throttle
    command, steering command, brake command), at most one group per
    tick. *)
Theorem publications_come_in_groups (self : node) (es : list event) :
  exists os : list (Q * Q * Q),
    publications (trace_of control self es) = flat_map publish_outputs os /\
    (length os <= ticks es)%nat.
Proof.
  revert self. induction es as [|e es IH]; intros self.
  - exists []. split; [reflexivity | apply Nat.le_refl].
  - destruct (IH (fst (step control self e))) as (os & Hos & Hlen).
    rewrite trace_of_cons, publications_app, publications_step, Hos,
      ticks_cons.
    destruct (is_loop_tick e && truthy (dbw_enabled self)) eqn:Hpub.
    + exists (held_outputs (fst (step control self e)) :: os).
      apply andb_true_iff in Hpub as [-> _].
      split; [reflexivity | simpl; lia].
    + exists os. split; [reflexivity | lia].
Qed.

Lemma control_args_present_step (self : node) e :
  forallb control_args_present (snd (step control self e)) = true.
Proof.
  destruct e; try reflexivity.
  unfold step, loop_body, inputs_ready, None_in, call_control.
  destruct (current_vel self), (linear_vel self), (angular_vel self); simpl;
    match goal with |- context [truthy ?v] => destruct (truthy v) end;
    reflexivity.
Qed.

(** X8. [control] is never passed [None]: in any run, from any attributes,
    every call of [control] receives a number for current velocity, linear
    setpoint and angular setpoint. *)
Theorem control_never_receives_None (self : node) (es : list event) :
  forallb control_args_present (trace_of control self es) = true.
Proof.
  revert self. induction es as [|e es IH]; intros self; [reflexivity|].
  rewrite trace_of_cons, forallb_app, IH, control_args_present_step.
  reflexivity.
Qed.

(** X9. After construction [control] is never passed a flag that is false
    as a condition, not even after a message with [data = False]. *)
Theorem control_flag_truthy_from_construction
    (c : Controller) (es : list event) :
  forallb control_flag_truthy (trace_of control (initial_node c) es) = true.
Proof.
  assert (H : forall self : node,
             truthy (dbw_enabled self) = true ->
             forallb control_flag_truthy (trace_of control self es) = true).
  { induction es as [|e es IH]; intros self Ht; [reflexivity|].
    rewrite trace_of_cons, forallb_app, (IH _ (step_truthy self e Ht)).
    rewrite andb_true_r. destruct e; try reflexivity.
    unfold step, loop_body, call_control.
    destruct (inputs_ready self); simpl; rewrite Ht; try rewrite Ht;
      reflexivity. }
  apply H. reflexivity.
Qed.

Lemma step_not_ready_keeps (self : node) e :
  inputs_ready self = false ->
  controller (fst (step control self e)) = controller self /\
  held_outputs (fst (step control self e)) = held_outputs self.
Proof.
  intros H. destruct e; try (split; reflexivity).
  unfold step, loop_body. rewrite H. split; reflexivity.
Qed.

(** X10. As long as the inputs are not all set at the end of a run, the run
    has not touched the controller or the held outputs, however many ticks
    it had. *)
Theorem not_ready_run_keeps_controller_and_outputs
    (self : node) (es : list event) :
  inputs_ready (state_after control self es) = false ->
  controller (state_after control self es) = controller self /\
  held_outputs (state_after control self es) = held_outputs self.
Proof.
  revert self. induction es as [|e es IH]; intros self H.
  - split; reflexivity.
  - rewrite state_after_cons in H |- *.
    destruct (IH _ H) as [Hc Hh]. rewrite Hc, Hh.
    apply step_not_ready_keeps.
    destruct (inputs_ready self) eqn:Hr; [|reflexivity].
    rewrite (run_keeps_ready es _ (step_keeps_ready self e Hr)) in H.
    discriminate.
Qed.

(** X11. How the callbacks compose: on one topic the later message
    replaces the earlier one; callbacks of different topics commute. *)
Theorem callbacks_compose (self : node) (m1 m2 : TwistStamped) (b : BoolMsg) :
  twist_cb (twist_cb self m1) m2 = twist_cb self m2 /\
  velocity_cb (velocity_cb self m1) m2 = velocity_cb self m2 /\
  velocity_cb (twist_cb self m1) m2 = twist_cb (velocity_cb self m2) m1 /\
  fst (dbw_enabled_cb (twist_cb self m1) b) =
    twist_cb (fst (dbw_enabled_cb self b)) m1 /\
  fst (dbw_enabled_cb (velocity_cb self m1) b) =
    velocity_cb (fst (dbw_enabled_cb self b)) m1.
Proof. repeat split; reflexivity. Qed.

Lemma last_control_result_cases o0 (tr : list action) :
  last_control_result o0 tr = o0 \/
  In (last_control_result o0 tr) (control_results tr).
Proof.
  revert o0. induction tr as [|a tr IH]; intros o0; [left; reflexivity|].
  destruct a as [cv en lv av r| | | | |]; simpl; try apply IH.
  destruct (IH r) as [Hr | Hin]; right; [rewrite Hr|]; auto.
Qed.

Lemma control_results_app (t1 t2 : list action) :
  control_results (t1 ++ t2) = control_results t1 ++ control_results t2.
Proof. unfold control_results. apply flat_map_app. Qed.

(** X12. The node publishes nothing of its own making: in any run, every
    published group carries either the outputs held at the start of the run
    (the zeros of [__init__], for a run from construction) or a triple that
    a call of [control] in that run returned. *)
Theorem publishes_only_control_results (self : node) (es : list event) :
  exists os : list (Q * Q * Q),
    publications (trace_of control self es) = flat_map publish_outputs os /\
    Forall (fun o => o = held_outputs self \/
                     In o (control_results (trace_of control self es))) os.
Proof.
  revert self. induction es as [|e es IH]; intros self.
  - exists []. split; [reflexivity | constructor].
  - destruct (IH (fst (step control self e))) as (os & Hos & Hall).
    rewrite trace_of_cons, publications_app, publications_step, Hos.
    assert (Hheld : held_outputs (fst (step control self e))
                    = held_outputs self \/
                    In (held_outputs (fst (step control self e)))
                       (control_results (snd (step control self e)))).
    { rewrite step_held_outputs. apply last_control_result_cases. }
    assert (Hall' :
      Forall (fun o => o = held_outputs self \/
                       In o (control_results
                               (snd (step control self e) ++
                                trace_of control (fst (step control self e))
                                         es))) os).
    { eapply Forall_impl; [exact Hall|]. intros o [-> | Hin].
      - destruct Hheld as [-> | Hin]; [left; reflexivity|].
        right. rewrite control_results_app. apply in_or_app. left; exact Hin.
      - right. rewrite control_results_app. apply in_or_app.
        right; exact Hin. }
    destruct (is_loop_tick e && truthy (dbw_enabled self)).
    + exists (held_outputs (fst (step control self e)) :: os).
      split; [reflexivity|]. constructor; [|exact Hall'].
      destruct Hheld as [-> | Hin]; [left; reflexivity|].
      right. rewrite control_results_app. apply in_or_app. left; exact Hin.
    + exists os. split; [reflexivity | exact Hall'].
Qed.

End NodeProperties.

(** ** Construction *)






(** C5. Each of the ten vehicle parameters has a default, with the values
    listed, and the defaults satisfy the invariant of the data model:
    [decel_limit < 0 < accel_limit], and [wheel_radius], [wheel_base],
    [steer_ratio] positive. *)
Theorem default_parameters :
  let p := read_parameters ∅ in
  p = {| vehicle_mass := 1736.35; fuel_capacity := 13.5;
         brake_deadband := 0.1; decel_limit := -5; accel_limit := 1.0;
         wheel_radius := 0.2413; wheel_base := 2.8498; steer_ratio := 14.8;
         max_lat_accel := 3.0; max_steer_angle := 8.0 |} /\
  (vehicle_mass p == 173635 # 100 /\ fuel_capacity p == 27 # 2 /\
   brake_deadband p == 1 # 10 /\ decel_limit p == -5 # 1 /\
   accel_limit p == 1 # 1 /\ wheel_radius p == 2413 # 10000 /\
   wheel_base p == 28498 # 10000 /\ steer_ratio p == 148 # 10 /\
   max_lat_accel p == 3 # 1 /\ max_steer_angle p == 8 # 1) /\
  (decel_limit p < 0 /\ 0 < accel_limit p /\
   0 < wheel_radius p /\ 0 < wheel_base p /\ 0 < steer_ratio p) /\
  parameters_valid p = true.
Proof.
  intros p. subst p.
  split; [reflexivity|]. split; [repeat split; reflexivity|].
  split; [repeat split; reflexivity | reflexivity].
Qed.

(** X13. Each keyword argument of the [Controller(...)] call is fed from
    the parameter of the same name: a value set on the parameter server
    under one of the ten names is the value passed, in place of the
    default. *)
Theorem set_parameter_is_passed (server : gmap string Q) (v : Q) :
  vehicle_mass (read_parameters (<["~vehicle_mass" := v]> server)) = v /\
  fuel_capacity (read_parameters (<["~fuel_capacity" := v]> server)) = v /\
  brake_deadband (read_parameters (<["~brake_deadband" := v]> server)) = v /\
  decel_limit (read_parameters (<["~decel_limit" := v]> server)) = v /\
  accel_limit (read_parameters (<["~accel_limit" := v]> server)) = v /\
  wheel_radius (read_parameters (<["~wheel_radius" := v]> server)) = v /\
  wheel_base (read_parameters (<["~wheel_base" := v]> server)) = v /\
  steer_ratio (read_parameters (<["~steer_ratio" := v]> server)) = v /\
  max_lat_accel (read_parameters (<["~max_lat_accel" := v]> server)) = v /\
  max_steer_angle (read_parameters (<["~max_steer_angle" := v]> server)) = v.
Proof.
  unfold read_parameters, get_param; simpl.
  rewrite !lookup_insert_eq. repeat split; reflexivity.
Qed.

(** X14. Only the ten names are read: a value set under any other name (a
    misspelt one, say) changes nothing, and the defaults stay in force. *)
Theorem other_parameter_names_are_ignored
    (server : gmap string Q) (name : string) (v : Q) :
  name ∉ parameter_names ->
  read_parameters (<[name := v]> server) = read_parameters server.
Proof.
  unfold parameter_names. rewrite !not_elem_of_cons.
  intros (H1 & H2 & H3 & H4 & H5 & H6 & H7 & H8 & H9 & H10 & _).
  unfold read_parameters, get_param.
  rewrite !lookup_insert_ne by done. reflexivity.
Qed.

(** * Concrete runs

    The theorems above at sample inputs, with the stand-in controller
    [probe_control]. *)

Lemma publishes_after_disable_message_witness :
  no_enable_msg [CurrentVelocityMsg (stamped 4 0)] = true /\
  publications
    (trace_of probe_control (initial_node 0%nat)
       ([] ++ DbwEnabledMsg {| data := false |}
           :: [CurrentVelocityMsg (stamped 4 0)] ++ [LoopTick])) =
  publish 0 0 0.
Proof.
  split; [reflexivity|].
  exact (proj1 (publishes_after_disable_message nat probe_control 0%nat []
                  [CurrentVelocityMsg (stamped 4 0)] eq_refl)).
Defined.

Lemma control_runs_iff_inputs_observed_witness :
  all_inputs_observed early_schedule = false /\
  control_calls
    (trace_of probe_control (initial_node 0%nat) early_schedule ++
     snd (loop_body probe_control
            (state_after probe_control (initial_node 0%nat) early_schedule)))
  = [].
Proof.
  split; [reflexivity|].
  exact (proj2 (proj2 (control_runs_iff_inputs_observed nat probe_control)
                      0%nat early_schedule) eq_refl).
Defined.

Lemma control_runs_whatever_the_flag_witness :
  inputs_ready ready_node = true /\
  control_calls
    (snd (loop_body probe_control (with_dbw_enabled (PyBool false) ready_node)))
  = [ControlCall (Some 4) (PyBool false) (Some 5) (Some 0.25)
                 (0, 5 + 20, 0.25 - 7)] /\
  publications
    (snd (loop_body probe_control (with_dbw_enabled (PyBool false) ready_node)))
  = [].
Proof.
  split; [reflexivity|].
  destruct (control_runs_whatever_the_flag nat probe_control ready_node
              (PyBool false) eq_refl) as (Hcall & _ & Hpub).
  split; [exact Hcall | exact Hpub].
Defined.

Lemma control_argument_and_result_order_witness :
  inputs_ready ready_node = true /\
  throttle (fst (loop_body probe_control ready_node)) = 0.5 /\
  brake (fst (loop_body probe_control ready_node)) = 5 + 20 /\
  steering (fst (loop_body probe_control ready_node)) = 0.25 - 7 /\
  controller (fst (loop_body probe_control ready_node)) = 1%nat.
Proof.
  split; [reflexivity|].
  exact (proj2 (control_argument_and_result_order nat probe_control
                  ready_node eq_refl)).
Defined.

Lemma publishes_while_no_dbw_message_witness :
  no_dbw_enabled_msg sample_schedule = true /\
  dbw_enabled (state_after probe_control (initial_node 0%nat) sample_schedule)
  = PyBool true /\
  publications
    (snd (loop_body probe_control
            (state_after probe_control (initial_node 0%nat) sample_schedule)))
  = [ ThrottlePub {| t_enable := true; t_pedal_cmd_type := CMD_PERCENT;
                     t_pedal_cmd := 0.5 |};
      SteerPub {| s_enable := true; s_steering_wheel_angle_cmd := 0.25 - 7 |};
      BrakePub {| b_enable := true; b_pedal_cmd_type := CMD_TORQUE;
                  b_pedal_cmd := 5 + 20 |} ].
Proof.
  split; [reflexivity|].
  destruct (publishes_while_no_dbw_message nat probe_control 0%nat
              sample_schedule eq_refl) as (Hflag & Hpub & _).
  split; [exact Hflag | exact Hpub].
Defined.

Lemma readiness_is_monotone_witness :
  inputs_ready ready_node = true /\
  inputs_ready (state_after probe_control ready_node later_schedule) = true.
Proof.
  split; [reflexivity|].
  exact (proj1 (readiness_is_monotone nat probe_control ready_node
                  later_schedule eq_refl)).
Defined.

Lemma publishes_held_outputs_when_not_ready_witness :
  truthy (dbw_enabled
            (state_after probe_control (initial_node 0%nat) early_schedule))
  = true /\
  inputs_ready (state_after probe_control (initial_node 0%nat) early_schedule)
  = false /\
  publications
    (snd (loop_body probe_control
            (state_after probe_control (initial_node 0%nat) early_schedule)))
  = [ ThrottlePub {| t_enable := true; t_pedal_cmd_type := CMD_PERCENT;
                     t_pedal_cmd := 0 |};
      SteerPub {| s_enable := true; s_steering_wheel_angle_cmd := 0 |};
      BrakePub {| b_enable := true; b_pedal_cmd_type := CMD_TORQUE;
                  b_pedal_cmd := 0 |} ].
Proof.
  split; [reflexivity|]. split; [reflexivity|].
  exact (proj2 (proj2 (proj2 (publishes_held_outputs_when_not_ready
                                nat probe_control)
                             0%nat early_schedule eq_refl eq_refl))).
Defined.


(** A [decel_limit] that is not negative halts startup in the same way. *)
Example positive_decel_limit_halts_startup :
  DBWNode_main probe_control (Controller_init (fun _ => 0%nat))
               server_positive_decel_limit sample_schedule
  = Raise ConfigurationError.
Proof. vm_compute. reflexivity. Qed.

(** With nothing set on the parameter server the node starts. *)
Example default_parameters_start :
  DBWNode_main probe_control (Controller_init (fun _ => 0%nat)) ∅ [] =
  Ok (initial_node 0%nat, []).
Proof. vm_compute. reflexivity. Qed.


(** C6 as stated fails on the first tick after construction: no input has
    been observed, and the tick makes no call of [control] instead of one. *)
Lemma control_not_called_on_first_tick :
  length (control_calls (snd (loop_body probe_control (initial_node 0%nat))))
  <> 1%nat.
Proof. vm_compute. discriminate. Qed.

(** C1 as stated fails: construction, a disable message, one tick, and the
    three commands are published. *)
Lemma disable_message_then_tick_publishes :
  publications
    (trace_of probe_control (initial_node 0%nat)
              [DbwEnabledMsg {| data := false |}; LoopTick])
  = publish 0 0 0.
Proof. vm_compute. reflexivity. Qed.

Lemma messages_alone_do_not_actuate_witness :
  no_loop_tick message_schedule = true /\
  publications (trace_of probe_control (initial_node 0%nat) message_schedule)
  = [] /\
  control_calls (trace_of probe_control (initial_node 0%nat) message_schedule)
  = [] /\
  controller (state_after probe_control (initial_node 0%nat) message_schedule)
  = 0%nat /\
  held_outputs
    (state_after probe_control (initial_node 0%nat) message_schedule)
  = (0, 0, 0).
Proof.
  split; [reflexivity|].
  exact (messages_alone_do_not_actuate nat probe_control (initial_node 0%nat)
           message_schedule eq_refl).
Defined.

Lemma not_ready_run_keeps_controller_and_outputs_witness :
  inputs_ready (state_after probe_control (initial_node 0%nat) early_schedule)
  = false /\
  controller (state_after probe_control (initial_node 0%nat) early_schedule)
  = 0%nat /\
  held_outputs (state_after probe_control (initial_node 0%nat) early_schedule)
  = (0, 0, 0).
Proof.
  split; [reflexivity|].
  exact (not_ready_run_keeps_controller_and_outputs nat probe_control
           (initial_node 0%nat) early_schedule eq_refl).
Defined.

Lemma other_parameter_names_are_ignored_witness :
  ("~wheelbase" ∉ parameter_names) /\
  read_parameters (<["~wheelbase" := 3]> ∅) = read_parameters ∅.
Proof.
  assert (H : "~wheelbase" ∉ parameter_names).
  { unfold parameter_names. rewrite !not_elem_of_cons.
    repeat split; try discriminate. apply not_elem_of_nil. }
  split; [exact H|].
  exact (other_parameter_names_are_ignored ∅ "~wheelbase" 3 H).
Defined.

(** A run with four ticks, a disable and an enable message: twelve
    publisher calls, two "on" lines, and [control] called on the last two
    ticks only. *)
Example mixed_schedule_run :
  length (publications
            (trace_of probe_control (initial_node 0%nat) mixed_schedule))
  = 12%nat /\
  List.filter is_turned_log
    (trace_of probe_control (initial_node 0%nat) mixed_schedule)
  = [Loginfo (LogDbwTurned true); Loginfo (LogDbwTurned true)] /\
  length (control_calls
            (trace_of probe_control (initial_node 0%nat) mixed_schedule))
  = 2%nat.
Proof. vm_compute. repeat split; reflexivity. Qed.
